(** * SPI master library (libraries/SPI/src/SPI.cpp)

    A shallow embedding of [SPIClass]: the settings cache, the calls it
    forwards to the HAL ([spi_init], [spi_deinit], [spi_getClkFreq],
    [spi_transfer]) and the properties of the public methods.

    Conventions.
    - C integers are [Z]; where an expression can leave its type the
      wrap-around is written with [uint8], [uint16], [uint32].
    - The enums [BitOrder] and [SPIMode] are kept as their integer
      representation: the code only stores them, casts an integer to
      [SPIMode] and tests a [BitOrder] against zero.
    - Buffers are [list byte]; a pointer argument that may be [NULL] is an
      [option].
    - The HAL is an interface ([Class HAL]): its functions receive the
      hardware state and the [spi_t] object behind the pointer [&_spi] and
      give both back.  Every call the class makes is appended to a trace. *)

From Stdlib Require Import ZArith List Bool Lia.
From Stdlib Require Import Strings.Byte.
Import ListNotations.

Local Open Scope Z_scope.

(** ** Fixed-width integers *)

Definition uint8 (z : Z) : Z := z mod 2 ^ 8.
Definition uint16 (z : Z) : Z := z mod 2 ^ 16.
Definition uint32 (z : Z) : Z := z mod 2 ^ 32.

Definition Z_of_byte (b : byte) : Z := Z.of_N (Byte.to_N b).

Definition byte_of_Z (z : Z) : byte :=
  match Byte.of_N (Z.to_N (uint8 z)) with
  | Some b => b
  | None => x00
  end.

(** A [uint16_t] seen through a [uint8_t *] (the core is little-endian):
    the low byte comes first. *)
Definition bytes_of_uint16 (data : Z) : list byte :=
  [byte_of_Z (Z.land data 255); byte_of_Z (Z.shiftr data 8)].

Definition uint16_of_bytes (buf : list byte) : Z :=
  Z.lor (Z_of_byte (nth 0 buf x00)) (Z.shiftl (Z_of_byte (nth 1 buf x00)) 8).

(** What a buffer [old] holds once a callee has written [new] from its
    first byte on: the buffer keeps its size. *)
Definition write_back (old new : list byte) : list byte :=
  firstn (length old) new ++ skipn (length new) old.

(** A [void *] argument: [None] is [NULL], [Some b] points to the bytes [b]. *)
Definition is_NULL (p : option (list byte)) : bool :=
  match p with None => true | Some _ => false end.

Definition deref (p : option (list byte)) : list byte :=
  match p with Some b => b | None => [] end.

(** ** Enums, by representation *)

Definition BitOrder := Z.
Definition SPIMode := Z.
Definition PinName := Z.

(** [(SPIMode)mode] for a [uint8_t mode]. *)
Definition SPIMode_of_uint8 (mode : Z) : SPIMode := mode.

(** ** SPISettings *)

Module SPISettings.

(** Modelled from the spec: the class [SPISettings] is declared in SPI.h,
    not in SPI.cpp.  The record has one field per accessor that SPI.cpp
    calls, and "settings differ" ([operator!=]) is read as: some field
    differs. *)
Record t : Type := mk {
  clockFreq : Z;
  bitOrder : BitOrder;
  dataMode : SPIMode;
  skipRecv : bool
}.

Definition getClockFreq (s : t) : Z := clockFreq s.
Definition getBitOrder (s : t) : BitOrder := bitOrder s.
Definition getDataMode (s : t) : SPIMode := dataMode s.
Definition getSkipRecv (s : t) : bool := skipRecv s.

Definition setClockFreq (clkFreq : Z) (s : t) : t :=
  mk clkFreq (bitOrder s) (dataMode s) (skipRecv s).
Definition setBitOrder (order : BitOrder) (s : t) : t :=
  mk (clockFreq s) order (dataMode s) (skipRecv s).
Definition setDataMode (mode : SPIMode) (s : t) : t :=
  mk (clockFreq s) (bitOrder s) mode (skipRecv s).

Definition eqb (a b : t) : bool :=
  (clockFreq a =? clockFreq b) && (bitOrder a =? bitOrder b)
  && (dataMode a =? dataMode b) && Bool.eqb (skipRecv a) (skipRecv b).

(** [operator!=] *)
Definition neb (a b : t) : bool := negb (eqb a b).

(** [(clock, mode, order)], the three values handed to [spi_init]. *)
Definition config (s : t) : Z * SPIMode * BitOrder :=
  (getClockFreq s, getDataMode s, getBitOrder s).

End SPISettings.

(** ** The SPI object and the HAL *)

Record SPI_HandleTypeDef (D : Type) : Type := mkHandle {
  State : Z;
  Internals : D
}.
Arguments mkHandle {D}.
Arguments State {D}.
Arguments Internals {D}.

Record spi_t (D : Type) : Type := mkSpi {
  handle : SPI_HandleTypeDef D;
  pin_miso : PinName;
  pin_mosi : PinName;
  pin_sclk : PinName;
  pin_ssel : PinName
}.
Arguments mkSpi {D}.
Arguments handle {D}.
Arguments pin_miso {D}.
Arguments pin_mosi {D}.
Arguments pin_sclk {D}.
Arguments pin_ssel {D}.

(** The HAL and the constants of the headers.  Nothing is assumed about
    what the functions compute. *)
Class HAL : Type := {
  HW : Type;
  HandleData : Type;
  hal_spi_init :
    HW -> spi_t HandleData -> Z -> SPIMode -> BitOrder -> HW * spi_t HandleData;
  hal_spi_deinit : HW -> spi_t HandleData -> HW * spi_t HandleData;
  hal_spi_getClkFreq : HW -> spi_t HandleData -> HW * spi_t HandleData * Z;
  hal_spi_transfer :
    HW -> spi_t HandleData -> list byte -> Z -> Z -> bool ->
    HW * spi_t HandleData * list byte;
  HAL_SPI_STATE_RESET : Z;
  SPI_SPEED_CLOCK_DEFAULT : Z;
  SPI_TRANSFER_TIMEOUT : Z;
  DEFAULT_SPI_SETTINGS : SPISettings.t
}.

(** One entry per call into the HAL, with the arguments passed next to
    [&_spi]. *)
Inductive HalCall : Type :=
| Call_spi_init (speed : Z) (mode : SPIMode) (msb : BitOrder)
| Call_spi_deinit
| Call_spi_getClkFreq
| Call_spi_transfer (buffer : list byte) (len : Z) (timeout : Z) (skipReceive : bool).

Definition is_spi_init (c : HalCall) : bool :=
  match c with Call_spi_init _ _ _ => true | _ => false end.

Definition is_spi_transfer (c : HalCall) : bool :=
  match c with Call_spi_transfer _ _ _ _ => true | _ => false end.

Definition spi_init_calls (tr : list HalCall) : nat :=
  length (filter is_spi_init tr).

Definition spi_transfer_calls (tr : list HalCall) : nat :=
  length (filter is_spi_transfer tr).

(** Arguments of the most recent [spi_init] of a trace. *)
Fixpoint last_spi_init (tr : list HalCall) : option (Z * SPIMode * BitOrder) :=
  match tr with
  | [] => None
  | c :: rest =>
      match last_spi_init rest with
      | Some cfg => Some cfg
      | None =>
          match c with
          | Call_spi_init speed mode msb => Some (speed, mode, msb)
          | _ => None
          end
      end
  end.

Module SPIClass.
Section WithHAL.

Context {hal : HAL}.

(** The members of [SPIClass]. *)
Record obj : Type := mkObj {
  _spi : spi_t HandleData;
  _spiSettings : SPISettings.t
}.

Record World : Type := mkWorld {
  hw : HW;
  this : obj;
  trace : list HalCall
}.

(** *** A state monad over [World] *)

Definition M (A : Type) : Type := World -> A * World.

Definition ret {A} (a : A) : M A := fun w => (a, w).

Definition bind {A B} (m : M A) (k : A -> M B) : M B :=
  fun w => let (a, w') := m w in k a w'.

Definition exec {A} (m : M A) (w : World) : World := snd (m w).
Definition eval {A} (m : M A) (w : World) : A := fst (m w).

Notation "x <- m ;; k" := (bind m (fun x => k))
  (at level 61, m at next level, right associativity).
Notation "m ;; k" := (bind m (fun _ => k))
  (at level 61, right associativity).

Definition get_spiSettings : M SPISettings.t :=
  fun w => (_spiSettings (this w), w).

Definition set_spiSettings (s : SPISettings.t) : M unit :=
  fun w => (tt, mkWorld (hw w) (mkObj (_spi (this w)) s) (trace w)).

Definition modify_spiSettings (f : SPISettings.t -> SPISettings.t) : M unit :=
  s <- get_spiSettings ;; set_spiSettings (f s).

(** [_spi.handle.State = st] *)
Definition set_handle_State (st : Z) : M unit :=
  fun w =>
    let s := _spi (this w) in
    let s' := mkSpi (mkHandle st (Internals (handle s)))
                    (pin_miso s) (pin_mosi s) (pin_sclk s) (pin_ssel s) in
    (tt, mkWorld (hw w) (mkObj s' (_spiSettings (this w))) (trace w)).

(** *** The HAL primitives, called on [&_spi] *)

Definition spi_init (speed : Z) (mode : SPIMode) (msb : BitOrder) : M unit :=
  fun w =>
    let '(h, s) := hal_spi_init (hw w) (_spi (this w)) speed mode msb in
    (tt, mkWorld h (mkObj s (_spiSettings (this w)))
                 (trace w ++ [Call_spi_init speed mode msb])).

Definition spi_deinit : M unit :=
  fun w =>
    let '(h, s) := hal_spi_deinit (hw w) (_spi (this w)) in
    (tt, mkWorld h (mkObj s (_spiSettings (this w)))
                 (trace w ++ [Call_spi_deinit])).

(** The result is a [uint32_t]. *)
Definition spi_getClkFreq : M Z :=
  fun w =>
    let '(h, s, f) := hal_spi_getClkFreq (hw w) (_spi (this w)) in
    (uint32 f, mkWorld h (mkObj s (_spiSettings (this w)))
                       (trace w ++ [Call_spi_getClkFreq])).

(** The one buffer is sent and overwritten; the result is its content
    when the call returns. *)
Definition spi_transfer (buffer : list byte) (len timeout : Z)
    (skipReceive : bool) : M (list byte) :=
  fun w =>
    let '(h, s, rx) :=
      hal_spi_transfer (hw w) (_spi (this w)) buffer len timeout skipReceive in
    (write_back buffer rx,
     mkWorld h (mkObj s (_spiSettings (this w)))
             (trace w ++ [Call_spi_transfer buffer len timeout skipReceive])).

(** *** Public methods *)

Definition begin : M unit :=
  set_handle_State HAL_SPI_STATE_RESET ;;
  set_spiSettings DEFAULT_SPI_SETTINGS ;;
  s <- get_spiSettings ;;
  spi_init (SPISettings.getClockFreq s)
           (SPISettings.getDataMode s)
           (SPISettings.getBitOrder s).

Definition beginTransaction (settings : SPISettings.t) : M unit :=
  cur <- get_spiSettings ;;
  if SPISettings.neb cur settings then
    set_spiSettings settings ;;
    s <- get_spiSettings ;;
    spi_init (SPISettings.getClockFreq s)
             (SPISettings.getDataMode s)
             (SPISettings.getBitOrder s)
  else ret tt.

Definition endTransaction : M unit := ret tt.

Definition end_ : M unit := spi_deinit.

Definition setBitOrder (bitOrder : BitOrder) : M unit :=
  modify_spiSettings (SPISettings.setBitOrder bitOrder) ;;
  s <- get_spiSettings ;;
  spi_init (SPISettings.getClockFreq s)
           (SPISettings.getDataMode s)
           (SPISettings.getBitOrder s).

Definition setDataMode (mode : SPIMode) : M unit :=
  modify_spiSettings (SPISettings.setDataMode mode) ;;
  s <- get_spiSettings ;;
  spi_init (SPISettings.getClockFreq s)
           (SPISettings.getDataMode s)
           (SPISettings.getBitOrder s).

Definition setDataMode_uint8 (mode : Z) : M unit :=
  setDataMode (SPIMode_of_uint8 mode).

Definition setClockDivider (_divider : Z) : M unit :=
  (if _divider =? 0 then
     modify_spiSettings (SPISettings.setClockFreq SPI_SPEED_CLOCK_DEFAULT)
   else
     f <- spi_getClkFreq ;;
     modify_spiSettings (SPISettings.setClockFreq (f / _divider))) ;;
  s <- get_spiSettings ;;
  spi_init (SPISettings.getClockFreq s)
           (SPISettings.getDataMode s)
           (SPISettings.getBitOrder s).

(** [((data & 0xff00) >> 8) | ((data & 0xff) << 8)], stored in a
    [uint16_t]. *)
Definition swap16 (data : Z) : Z :=
  uint16 (Z.lor (Z.shiftr (Z.land data 0xff00) 8)
                (Z.shiftl (Z.land data 0xff) 8)).

Definition transfer (data : byte) : M byte :=
  s <- get_spiSettings ;;
  buf <- spi_transfer [data] 1 SPI_TRANSFER_TIMEOUT (SPISettings.getSkipRecv s) ;;
  ret (hd data buf).

Definition transfer16 (data : Z) : M Z :=
  s <- get_spiSettings ;;
  let data := if negb (SPISettings.getBitOrder s =? 0) then swap16 data else data in
  buf <- spi_transfer (bytes_of_uint16 data) 2 SPI_TRANSFER_TIMEOUT
                      (SPISettings.getSkipRecv s) ;;
  let data := uint16_of_bytes buf in
  s <- get_spiSettings ;;
  let data := if negb (SPISettings.getBitOrder s =? 0) then swap16 data else data in
  ret data.

(** [transfer(void *buf, size_t count)]; [None] is [NULL].  The result is
    the buffer behind [buf] when the call returns. *)
Definition transfer_buf (buf : option (list byte)) (count : Z)
    : M (option (list byte)) :=
  if negb (count =? 0) && negb (is_NULL buf) then
    s <- get_spiSettings ;;
    b <- spi_transfer (deref buf) count SPI_TRANSFER_TIMEOUT
                      (SPISettings.getSkipRecv s) ;;
    ret (Some b)
  else ret buf.

Definition usingInterrupt (interruptNumber : Z) : M unit := ret tt.
Definition notUsingInterrupt (interruptNumber : Z) : M unit := ret tt.
Definition attachInterrupt : M unit := ret tt.
Definition detachInterrupt : M unit := ret tt.

(** *** Sequences of calls on one object *)

Inductive Op : Type :=
| OpBegin
| OpBeginTransaction (settings : SPISettings.t)
| OpEndTransaction
| OpEnd
| OpSetBitOrder (bitOrder : BitOrder)
| OpSetDataMode (mode : SPIMode)
| OpSetDataMode_uint8 (mode : Z)
| OpSetClockDivider (_divider : Z)
| OpTransfer (data : byte)
| OpTransfer16 (data : Z)
| OpTransfer_buf (buf : option (list byte)) (count : Z)
| OpUsingInterrupt (interruptNumber : Z)
| OpNotUsingInterrupt (interruptNumber : Z)
| OpAttachInterrupt
| OpDetachInterrupt.

Definition step (o : Op) (w : World) : World :=
  match o with
  | OpBegin => exec begin w
  | OpBeginTransaction settings => exec (beginTransaction settings) w
  | OpEndTransaction => exec endTransaction w
  | OpEnd => exec end_ w
  | OpSetBitOrder bitOrder => exec (setBitOrder bitOrder) w
  | OpSetDataMode mode => exec (setDataMode mode) w
  | OpSetDataMode_uint8 mode => exec (setDataMode_uint8 mode) w
  | OpSetClockDivider d => exec (setClockDivider d) w
  | OpTransfer data => exec (transfer data) w
  | OpTransfer16 data => exec (transfer16 data) w
  | OpTransfer_buf buf count => exec (transfer_buf buf count) w
  | OpUsingInterrupt n => exec (usingInterrupt n) w
  | OpNotUsingInterrupt n => exec (notUsingInterrupt n) w
  | OpAttachInterrupt => exec attachInterrupt w
  | OpDetachInterrupt => exec detachInterrupt w
  end.

Definition steps (ops : list Op) (w : World) : World :=
  fold_left (fun w o => step o w) ops w.

(** The cached settings of a world. *)
Definition cached (w : World) : SPISettings.t := _spiSettings (this w).

(** The configuration last given to the HAL, if any, is the cached one. *)
Definition cache_consistent (w : World) : Prop :=
  match last_spi_init (trace w) with
  | Some cfg => cfg = SPISettings.config (cached w)
  | None => True
  end.

(** A call, if it is a [spi_init], passes [cfg]. *)
Definition init_passes (cfg : Z * SPIMode * BitOrder) (c : HalCall) : Prop :=
  match c with
  | Call_spi_init speed mode msb => (speed, mode, msb) = cfg
  | _ => True
  end.

(** What one call adds to the trace: every [spi_init] in it passes the
    settings cached when the call returns, and a call without [spi_init]
    leaves the cache alone. *)
Definition sound_step (w w' : World) : Prop :=
  exists evs,
    trace w' = trace w ++ evs /\
    Forall (init_passes (SPISettings.config (cached w'))) evs /\
    (last_spi_init evs = None -> cached w' = cached w).

(** "[spi_init] is invoked by [op] only when the settings [requested] differ
    from the cached ones", at the world [w]. *)
Definition reinit_only_on_change (op : M unit) (requested : SPISettings.t)
    (w : World) : Prop :=
  spi_init_calls (trace (exec op w)) <> spi_init_calls (trace w) ->
  requested <> cached w.

(** "[m] forwards to [spi_transfer] with the timeout [SPI_TRANSFER_TIMEOUT]
    and the cached skip-receive flag", at the world [w]. *)
Definition forwards_to_spi_transfer {A} (m : M A) (w : World) : Prop :=
  exists buffer len,
    trace (exec m w) =
    trace w ++ [Call_spi_transfer buffer len SPI_TRANSFER_TIMEOUT
                                  (SPISettings.getSkipRecv (cached w))].

(** Methods that can store settings in the cache: [begin],
    [beginTransaction] and the deprecated setters. *)
Definition stores_settings (o : Op) : bool :=
  match o with
  | OpBegin | OpBeginTransaction _ | OpSetBitOrder _ | OpSetDataMode _
  | OpSetDataMode_uint8 _ | OpSetClockDivider _ => true
  | _ => false
  end.

(** Methods that replace the cached settings as a whole. *)
Definition replaces_settings (o : Op) : bool :=
  match o with
  | OpBegin | OpBeginTransaction _ => true
  | _ => false
  end.

End WithHAL.
End SPIClass.

(** ** SUBGHZSPIClass (under [SUBGHZSPI_BASE])

    The derived class calls the methods of its base on the same object. *)
Module SUBGHZSPIClass.
Section WithHAL.

Context {hal : HAL}.

Definition begin : SPIClass.M unit := SPIClass.begin.

Definition beginTransaction (settings : SPISettings.t) : SPIClass.M unit :=
  SPIClass.beginTransaction settings.

Definition transfer (_data : byte) : SPIClass.M byte :=
  SPIClass.bind (SPIClass.transfer _data) (fun res => SPIClass.ret res).

Definition transfer16 (_data : Z) : SPIClass.M Z :=
  SPIClass.bind (SPIClass.transfer16 _data)
                (fun rx_buffer => SPIClass.ret rx_buffer).

Definition transfer_buf (_buf : option (list byte)) (_count : Z)
    : SPIClass.M (option (list byte)) :=
  SPIClass.transfer_buf _buf _count.

End WithHAL.
End SUBGHZSPIClass.

(** ** A bench HAL

    An instance of the interface to run the methods on: the hardware state
    is the queue of bytes the slave will answer with; [spi_init] marks the
    handle ready (1) and [spi_deinit] resets it (0); the peripheral clock is
    72 MHz; a transfer that receives takes its answer from the queue. *)
Module Bench.

Definition set_State (st : Z) (s : spi_t unit) : spi_t unit :=
  mkSpi (mkHandle st tt) (pin_miso s) (pin_mosi s) (pin_sclk s) (pin_ssel s).

#[export] Instance hal : HAL := {|
  HW := list byte;
  HandleData := unit;
  hal_spi_init := fun h s _ _ _ => (h, set_State 1 s);
  hal_spi_deinit := fun h s => (h, set_State 0 s);
  hal_spi_getClkFreq := fun h s => (h, s, 72000000);
  hal_spi_transfer := fun h s buf _ _ skip =>
    if skip then (h, s, buf)
    else (skipn (length buf) h, s, firstn (length buf) h);
  HAL_SPI_STATE_RESET := 0;
  SPI_SPEED_CLOCK_DEFAULT := 4000000;
  SPI_TRANSFER_TIMEOUT := 1000;
  DEFAULT_SPI_SETTINGS := SPISettings.mk 4000000 1 0 false
|}.

Definition spi0 : spi_t unit := mkSpi (mkHandle 0 tt) 12 11 13 (-1).

Definition w0 : SPIClass.World :=
  SPIClass.mkWorld [xa5; x3c; x0f; xf0]
                   (SPIClass.mkObj spi0 (SPISettings.mk 4000000 1 0 false))
                   [].

(** The same object after a [begin]. *)
Definition w1 : SPIClass.World := SPIClass.exec SPIClass.begin w0.

End Bench.

(** * Properties *)

(** ** Bytes and words *)

Lemma uint8_range (z : Z) : 0 <= uint8 z < 256.
Proof. unfold uint8. apply Z.mod_pos_bound. reflexivity. Qed.

Lemma uint8_small (z : Z) : 0 <= z < 256 -> uint8 z = z.
Proof. intros H. unfold uint8. apply Z.mod_small. exact H. Qed.

Lemma Z_of_byte_range (b : byte) : 0 <= Z_of_byte b < 256.
Proof.
  unfold Z_of_byte. pose proof (Byte.to_N_bounded b) as Hb. lia.
Qed.

Lemma Z_of_byte_of_Z (z : Z) : Z_of_byte (byte_of_Z z) = uint8 z.
Proof.
  unfold byte_of_Z, Z_of_byte.
  pose proof (uint8_range z) as Hr.
  destruct (Byte.of_N (Z.to_N (uint8 z))) as [b|] eqn:E.
  - apply Byte.to_of_N in E. rewrite E. lia.
  - apply Byte.of_N_None_iff in E. lia.
Qed.

Lemma byte_of_Z_of_byte (b : byte) : byte_of_Z (Z_of_byte b) = b.
Proof.
  unfold byte_of_Z. rewrite uint8_small by apply Z_of_byte_range.
  unfold Z_of_byte. rewrite N2Z.id, Byte.of_to_N. reflexivity.
Qed.

Lemma uint16_of_bytes_of_uint16 (d : Z) :
  0 <= d < 65536 -> uint16_of_bytes (bytes_of_uint16 d) = d.
Proof.
  intros Hd. unfold uint16_of_bytes, bytes_of_uint16. cbn [nth].
  rewrite !Z_of_byte_of_Z. unfold uint8.
  change 255 with (Z.ones 8).
  rewrite Z.land_ones by lia.
  rewrite Z.mod_mod by lia.
  rewrite <- !Z.land_ones by lia.
  apply Z.bits_inj'. intros n Hn.
  rewrite Z.lor_spec, Z.shiftl_spec by lia.
  rewrite !Z.land_spec.
  destruct (Z.ltb_spec n 8) as [Hlt|Hge].
  - rewrite (Z.testbit_neg_r _ (n - 8)) by lia.
    rewrite Z.ones_spec_low by lia.
    rewrite andb_true_r, orb_false_r. reflexivity.
  - rewrite (Z.ones_spec_high 8 n) by lia.
    rewrite andb_false_r, orb_false_l.
    rewrite Z.shiftr_spec by lia.
    replace (n - 8 + 8) with n by lia.
    destruct (Z.ltb_spec n 16) as [Hlt|Hge16].
    + rewrite Z.ones_spec_low by lia. apply andb_true_r.
    + rewrite Z.ones_spec_high by lia. rewrite andb_false_r.
      symmetry. apply Z.bits_above_log2; [lia|].
      destruct (Z.eq_dec d 0) as [->|Hnz]; [simpl; lia|].
      apply Z.log2_lt_pow2; [lia|].
      apply Z.lt_le_trans with (2 ^ 16); [lia|].
      apply Z.pow_le_mono_r; lia.
Qed.

Lemma write_back_length (old new : list byte) :
  length (write_back old new) = length old.
Proof.
  unfold write_back. rewrite length_app, length_firstn, length_skipn. lia.
Qed.

Lemma write_back_same (old : list byte) : write_back old old = old.
Proof.
  unfold write_back. rewrite firstn_all, skipn_all. apply app_nil_r.
Qed.

(** ** The byte swap of [transfer16] *)

Lemma swap16_testbit (d n : Z) :
  0 <= n ->
  Z.testbit (SPIClass.swap16 d) n =
  if n <? 8 then Z.testbit d (n + 8)
  else if n <? 16 then Z.testbit d (n - 8)
  else false.
Proof.
  intros Hn. unfold SPIClass.swap16, uint16.
  destruct (Z.ltb_spec n 16) as [H16|H16].
  - rewrite Z.mod_pow2_bits_low by lia.
    rewrite Z.lor_spec, Z.shiftr_spec, Z.shiftl_spec, !Z.land_spec by lia.
    change 0xff00 with (Z.shiftl (Z.ones 8) 8).
    change 0xff with (Z.ones 8).
    rewrite Z.shiftl_spec by lia.
    replace (n + 8 - 8) with n by lia.
    destruct (Z.ltb_spec n 8) as [H8|H8].
    + rewrite Z.ones_spec_low by lia.
      rewrite (Z.testbit_neg_r d (n - 8)) by lia.
      rewrite andb_true_r, andb_false_l, orb_false_r. reflexivity.
    + rewrite (Z.ones_spec_high 8 n) by lia.
      rewrite Z.ones_spec_low by lia.
      rewrite andb_false_r, andb_true_r, orb_false_l. reflexivity.
  - rewrite Z.mod_pow2_bits_high by lia.
    destruct (Z.ltb_spec n 8); [lia | reflexivity].
Qed.

Lemma uint16_testbit (d n : Z) :
  0 <= n ->
  Z.testbit (uint16 d) n = if n <? 16 then Z.testbit d n else false.
Proof.
  intros Hn. unfold uint16.
  destruct (Z.ltb_spec n 16).
  - apply Z.mod_pow2_bits_low. lia.
  - apply Z.mod_pow2_bits_high. lia.
Qed.

Lemma swap16_swap16 (d : Z) : SPIClass.swap16 (SPIClass.swap16 d) = uint16 d.
Proof.
  apply Z.bits_inj'. intros n Hn.
  rewrite swap16_testbit, uint16_testbit by assumption.
  destruct (Z.ltb_spec n 8) as [H8|H8].
  - rewrite swap16_testbit by lia.
    destruct (Z.ltb_spec (n + 8) 8); [lia|].
    destruct (Z.ltb_spec (n + 8) 16); [|lia].
    destruct (Z.ltb_spec n 16); [|lia].
    f_equal. lia.
  - destruct (Z.ltb_spec n 16) as [H16|H16]; [|reflexivity].
    rewrite swap16_testbit by lia.
    destruct (Z.ltb_spec (n - 8) 8); [|lia].
    f_equal. lia.
Qed.

Lemma swap16_range (d : Z) : 0 <= SPIClass.swap16 d < 65536.
Proof.
  unfold SPIClass.swap16, uint16. apply Z.mod_pos_bound. reflexivity.
Qed.

Lemma uint16_small (d : Z) : 0 <= d < 65536 -> uint16 d = d.
Proof. intros H. unfold uint16. apply Z.mod_small. exact H. Qed.

(** ** Comparing settings *)

Lemma SPISettings_eqb_eq (a b : SPISettings.t) :
  SPISettings.eqb a b = true <-> a = b.
Proof.
  unfold SPISettings.eqb. split.
  - intros H.
    apply andb_true_iff in H as [H Hs].
    apply andb_true_iff in H as [H Hm].
    apply andb_true_iff in H as [Hc Ho].
    apply Z.eqb_eq in Hc, Ho, Hm. apply Bool.eqb_prop in Hs.
    destruct a, b; simpl in *; congruence.
  - intros ->. rewrite !Z.eqb_refl, Bool.eqb_reflx. reflexivity.
Qed.

Lemma SPISettings_neb_true (a b : SPISettings.t) :
  SPISettings.neb a b = true <-> a <> b.
Proof.
  unfold SPISettings.neb. rewrite negb_true_iff, <- not_true_iff_false.
  now rewrite SPISettings_eqb_eq.
Qed.

Lemma SPISettings_neb_false (a b : SPISettings.t) :
  SPISettings.neb a b = false <-> a = b.
Proof.
  unfold SPISettings.neb. rewrite negb_false_iff. apply SPISettings_eqb_eq.
Qed.

(** ** Counting calls in a trace *)

Lemma spi_init_calls_app (t1 t2 : list HalCall) :
  spi_init_calls (t1 ++ t2) = (spi_init_calls t1 + spi_init_calls t2)%nat.
Proof. unfold spi_init_calls. now rewrite filter_app, length_app. Qed.

Lemma spi_transfer_calls_app (t1 t2 : list HalCall) :
  spi_transfer_calls (t1 ++ t2) =
  (spi_transfer_calls t1 + spi_transfer_calls t2)%nat.
Proof. unfold spi_transfer_calls. now rewrite filter_app, length_app. Qed.

Lemma last_spi_init_app (t1 t2 : list HalCall) :
  last_spi_init (t1 ++ t2) =
  match last_spi_init t2 with
  | Some cfg => Some cfg
  | None => last_spi_init t1
  end.
Proof.
  induction t1 as [|c t1 IH]; simpl.
  - now destruct (last_spi_init t2).
  - rewrite IH. now destruct (last_spi_init t2).
Qed.

Section Methods.

Context {hal : HAL}.
Import SPIClass.

(** *** Each method as one step on the world *)

Lemma spi_init_effect (speed : Z) (mode : SPIMode) (msb : BitOrder) (w : World) :
  cached (exec (spi_init speed mode msb) w) = cached w /\
  trace (exec (spi_init speed mode msb) w) =
  trace w ++ [Call_spi_init speed mode msb].
Proof.
  unfold exec, spi_init, cached.
  destruct (hal_spi_init _ _ _ _ _) as [h s]. simpl. auto.
Qed.

Lemma spi_getClkFreq_effect (w : World) :
  cached (exec spi_getClkFreq w) = cached w /\
  trace (exec spi_getClkFreq w) = trace w ++ [Call_spi_getClkFreq].
Proof.
  unfold exec, spi_getClkFreq, cached.
  destruct (hal_spi_getClkFreq _ _) as [[h s] f]. simpl. auto.
Qed.

Lemma spi_transfer_effect (buf : list byte) (len timeout : Z) (skip : bool)
    (w : World) :
  cached (exec (spi_transfer buf len timeout skip) w) = cached w /\
  trace (exec (spi_transfer buf len timeout skip) w) =
  trace w ++ [Call_spi_transfer buf len timeout skip].
Proof.
  unfold exec, spi_transfer, cached.
  destruct (hal_spi_transfer _ _ _ _ _ _) as [[h s] rx]. simpl. auto.
Qed.

Lemma exec_bind {A B} (m : M A) (k : A -> M B) (w : World) :
  exec (bind m k) w = exec (k (eval m w)) (exec m w).
Proof. unfold exec, eval, bind. now destruct (m w). Qed.

Lemma eval_bind {A B} (m : M A) (k : A -> M B) (w : World) :
  eval (bind m k) w = eval (k (eval m w)) (exec m w).
Proof. unfold exec, eval, bind. now destruct (m w). Qed.

(** The three setters and [begin] end in the same call: [spi_init] on the
    settings they have just stored. *)
Lemma store_then_init (s : SPISettings.t) (w : World) :
  let w' := exec (bind (set_spiSettings s) (fun _ =>
                  bind get_spiSettings (fun s =>
                  spi_init (SPISettings.getClockFreq s)
                           (SPISettings.getDataMode s)
                           (SPISettings.getBitOrder s)))) w in
  cached w' = s /\
  trace w' = trace w ++ [Call_spi_init (SPISettings.getClockFreq s)
                                       (SPISettings.getDataMode s)
                                       (SPISettings.getBitOrder s)].
Proof.
  cbv zeta. rewrite !exec_bind.
  change (eval get_spiSettings (exec (set_spiSettings s) w)) with s.
  change (exec get_spiSettings (exec (set_spiSettings s) w))
    with (exec (set_spiSettings s) w).
  destruct (spi_init_effect (SPISettings.getClockFreq s)
              (SPISettings.getDataMode s) (SPISettings.getBitOrder s)
              (exec (set_spiSettings s) w)) as [Hc Ht].
  rewrite Hc, Ht. split; reflexivity.
Qed.

Lemma modify_then_init (f : SPISettings.t -> SPISettings.t) (w : World) :
  let s := f (cached w) in
  let w' := exec (bind (modify_spiSettings f) (fun _ =>
                  bind get_spiSettings (fun s =>
                  spi_init (SPISettings.getClockFreq s)
                           (SPISettings.getDataMode s)
                           (SPISettings.getBitOrder s)))) w in
  cached w' = s /\
  trace w' = trace w ++ [Call_spi_init (SPISettings.getClockFreq s)
                                       (SPISettings.getDataMode s)
                                       (SPISettings.getBitOrder s)].
Proof. exact (store_then_init (f (cached w)) w). Qed.

Lemma setBitOrder_effect (bitOrder : BitOrder) (w : World) :
  let s := SPISettings.setBitOrder bitOrder (cached w) in
  cached (exec (setBitOrder bitOrder) w) = s /\
  trace (exec (setBitOrder bitOrder) w) =
  trace w ++ [Call_spi_init (SPISettings.getClockFreq s)
                            (SPISettings.getDataMode s)
                            (SPISettings.getBitOrder s)].
Proof. exact (modify_then_init (SPISettings.setBitOrder bitOrder) w). Qed.

Lemma setDataMode_effect (mode : SPIMode) (w : World) :
  let s := SPISettings.setDataMode mode (cached w) in
  cached (exec (setDataMode mode) w) = s /\
  trace (exec (setDataMode mode) w) =
  trace w ++ [Call_spi_init (SPISettings.getClockFreq s)
                            (SPISettings.getDataMode s)
                            (SPISettings.getBitOrder s)].
Proof. exact (modify_then_init (SPISettings.setDataMode mode) w). Qed.

Lemma begin_effect (w : World) :
  let s := DEFAULT_SPI_SETTINGS in
  cached (exec begin w) = s /\
  trace (exec begin w) =
  trace w ++ [Call_spi_init (SPISettings.getClockFreq s)
                            (SPISettings.getDataMode s)
                            (SPISettings.getBitOrder s)].
Proof.
  cbv zeta. unfold begin. rewrite exec_bind.
  exact (store_then_init DEFAULT_SPI_SETTINGS
           (exec (set_handle_State HAL_SPI_STATE_RESET) w)).
Qed.

Lemma beginTransaction_changed (settings : SPISettings.t) (w : World) :
  SPISettings.neb (cached w) settings = true ->
  cached (exec (beginTransaction settings) w) = settings /\
  trace (exec (beginTransaction settings) w) =
  trace w ++ [Call_spi_init (SPISettings.getClockFreq settings)
                            (SPISettings.getDataMode settings)
                            (SPISettings.getBitOrder settings)].
Proof.
  intros Hne. unfold beginTransaction. rewrite exec_bind.
  change (eval get_spiSettings w) with (cached w).
  change (exec get_spiSettings w) with w.
  rewrite Hne. exact (store_then_init settings w).
Qed.

Lemma beginTransaction_same (settings : SPISettings.t) (w : World) :
  SPISettings.neb (cached w) settings = false ->
  beginTransaction settings w = (tt, w).
Proof.
  intros Hne. unfold beginTransaction, bind, get_spiSettings.
  change (_spiSettings (this w)) with (cached w).
  rewrite Hne. reflexivity.
Qed.

Lemma setClockDivider_zero (w : World) :
  let s := SPISettings.setClockFreq SPI_SPEED_CLOCK_DEFAULT (cached w) in
  cached (exec (setClockDivider 0) w) = s /\
  trace (exec (setClockDivider 0) w) =
  trace w ++ [Call_spi_init (SPISettings.getClockFreq s)
                            (SPISettings.getDataMode s)
                            (SPISettings.getBitOrder s)].
Proof.
  exact (modify_then_init (SPISettings.setClockFreq SPI_SPEED_CLOCK_DEFAULT) w).
Qed.

Lemma setClockDivider_nonzero (d : Z) (w : World) :
  d <> 0 ->
  let f := eval spi_getClkFreq w in
  let s := SPISettings.setClockFreq (f / d) (cached w) in
  cached (exec (setClockDivider d) w) = s /\
  trace (exec (setClockDivider d) w) =
  trace w ++ [Call_spi_getClkFreq;
              Call_spi_init (SPISettings.getClockFreq s)
                            (SPISettings.getDataMode s)
                            (SPISettings.getBitOrder s)].
Proof.
  intros Hd. cbv zeta. unfold setClockDivider.
  apply Z.eqb_neq in Hd. rewrite Hd.
  destruct (spi_getClkFreq_effect w) as [Hc Ht].
  pose proof (modify_then_init
                (SPISettings.setClockFreq (eval spi_getClkFreq w / d))
                (exec spi_getClkFreq w)) as H.
  cbv zeta in H. rewrite Hc, Ht, <- app_assoc in H. simpl app in H.
  rewrite exec_bind in H |- *.
  rewrite (exec_bind spi_getClkFreq). exact H.
Qed.

(** *** Reinitialisation *)

(** C1, as amended.  [beginTransaction] calls [spi_init] exactly when the
    requested settings differ from the cached ones ([SPISettings.neb], which
    is inequality by [SPISettings_neb_true]) and not at all when they are
    equal.  [setBitOrder], [setDataMode] (both overloads) and
    [setClockDivider] call [spi_init] exactly once on every call, whatever
    the cached settings are. *)
Theorem reinit_policy (w : World) :
  (forall settings,
      spi_init_calls (trace (exec (beginTransaction settings) w)) =
      (spi_init_calls (trace w) +
       if SPISettings.neb (cached w) settings then 1 else 0)%nat) /\
  (forall bitOrder,
      spi_init_calls (trace (exec (setBitOrder bitOrder) w)) =
      S (spi_init_calls (trace w))) /\
  (forall mode,
      spi_init_calls (trace (exec (setDataMode mode) w)) =
      S (spi_init_calls (trace w))) /\
  (forall mode,
      spi_init_calls (trace (exec (setDataMode_uint8 mode) w)) =
      S (spi_init_calls (trace w))) /\
  (forall d,
      spi_init_calls (trace (exec (setClockDivider d) w)) =
      S (spi_init_calls (trace w))).
Proof.
  repeat split.
  - intros settings.
    destruct (SPISettings.neb (cached w) settings) eqn:Hne.
    + destruct (beginTransaction_changed settings w Hne) as [_ ->].
      rewrite spi_init_calls_app. reflexivity.
    + unfold exec. rewrite (beginTransaction_same settings w Hne).
      simpl. lia.
  - intros bitOrder. destruct (setBitOrder_effect bitOrder w) as [_ ->].
    rewrite spi_init_calls_app. unfold spi_init_calls. simpl. lia.
  - intros mode. destruct (setDataMode_effect mode w) as [_ ->].
    rewrite spi_init_calls_app. unfold spi_init_calls. simpl. lia.
  - intros mode. unfold setDataMode_uint8.
    destruct (setDataMode_effect (SPIMode_of_uint8 mode) w) as [_ ->].
    rewrite spi_init_calls_app. unfold spi_init_calls. simpl. lia.
  - intros d. destruct (Z.eq_dec d 0) as [->|Hd].
    + destruct (setClockDivider_zero w) as [_ ->].
      rewrite spi_init_calls_app. unfold spi_init_calls. simpl. lia.
    + destruct (setClockDivider_nonzero d w Hd) as [_ ->].
      rewrite spi_init_calls_app. unfold spi_init_calls. simpl. lia.
Qed.

(** C2.  When the requested settings differ from the cached ones,
    [beginTransaction] stores them and calls [spi_init] once, with their
    clock frequency, data mode and bit order; when they are the cached
    ones, nothing changes and nothing is called. *)
Theorem beginTransaction_spec (settings : SPISettings.t) (w : World) :
  (cached w <> settings ->
   cached (exec (beginTransaction settings) w) = settings /\
   trace (exec (beginTransaction settings) w) =
   trace w ++ [Call_spi_init (SPISettings.getClockFreq settings)
                             (SPISettings.getDataMode settings)
                             (SPISettings.getBitOrder settings)]) /\
  (cached w = settings -> beginTransaction settings w = (tt, w)).
Proof.
  split; intros H.
  - apply beginTransaction_changed. apply SPISettings_neb_true. exact H.
  - apply beginTransaction_same. apply SPISettings_neb_false. exact H.
Qed.

(** *** Methods without effect *)

(** C9.  [endTransaction] returns with the world as it found it: same
    object (settings and [_spi]), same hardware, no call. *)
Theorem endTransaction_noop (w : World) : endTransaction w = (tt, w).
Proof. reflexivity. Qed.

(** C7.  The four interrupt hooks return with the world as they found it,
    for every argument. *)
Theorem interrupt_hooks_noop (w : World) :
  (forall interruptNumber, usingInterrupt interruptNumber w = (tt, w)) /\
  (forall interruptNumber, notUsingInterrupt interruptNumber w = (tt, w)) /\
  attachInterrupt w = (tt, w) /\
  detachInterrupt w = (tt, w).
Proof. repeat split. Qed.

(** C10.  [setDataMode(uint8_t)] and [setDataMode(SPIMode)] on the cast
    argument give the same result and world, hence the same cached settings
    and the same calls. *)
Theorem setDataMode_uint8_equiv (mode : Z) (w : World) :
  setDataMode_uint8 mode w = setDataMode (SPIMode_of_uint8 mode) w /\
  cached (exec (setDataMode_uint8 mode) w) =
  cached (exec (setDataMode (SPIMode_of_uint8 mode)) w) /\
  trace (exec (setDataMode_uint8 mode) w) =
  trace (exec (setDataMode (SPIMode_of_uint8 mode)) w).
Proof. repeat split. Qed.

(** *** The clock divider *)

(** C4.  [setClockDivider(0)] caches the default speed; for a divider from 1
    to 255 it caches the quotient [q] of [spi_getClkFreq(&_spi)] by the
    divider, the integer with [q * d <= f < (q + 1) * d].  Either way the
    call ends with one [spi_init] on the cached settings as just updated,
    whose mode, bit order and receive flag are the former ones. *)
Theorem setClockDivider_spec (d : Z) (w : World) :
  let w' := exec (setClockDivider d) w in
  let f := eval spi_getClkFreq w in
  let q := SPISettings.getClockFreq (cached w') in
  let init := Call_spi_init q (SPISettings.getDataMode (cached w'))
                            (SPISettings.getBitOrder (cached w')) in
  (d = 0 -> q = SPI_SPEED_CLOCK_DEFAULT /\ trace w' = trace w ++ [init]) /\
  (1 <= d <= 255 ->
   q = f / d /\ q * d <= f < (q + 1) * d /\
   trace w' = trace w ++ [Call_spi_getClkFreq; init]) /\
  SPISettings.getDataMode (cached w') = SPISettings.getDataMode (cached w) /\
  SPISettings.getBitOrder (cached w') = SPISettings.getBitOrder (cached w) /\
  SPISettings.getSkipRecv (cached w') = SPISettings.getSkipRecv (cached w).
Proof.
  cbv zeta.
  destruct (Z.eq_dec d 0) as [->|Hd].
  - destruct (setClockDivider_zero w) as [Hc Ht]. cbv zeta in Hc, Ht.
    rewrite Hc, Ht. simpl.
    split; [intros _; split; reflexivity|].
    split; [intros Hr; lia|]. repeat split.
  - destruct (setClockDivider_nonzero d w Hd) as [Hc Ht]. cbv zeta in Hc, Ht.
    rewrite Hc, Ht. simpl.
    split; [intros H0; contradiction|].
    split; [intros Hr|repeat split].
    split; [reflexivity|]. split; [|reflexivity]. split.
    + rewrite Z.mul_comm. apply Z.mul_div_le. lia.
    + rewrite Z.mul_comm. apply Z.mul_succ_div_gt. lia.
Qed.

(** *** Transfers *)

Lemma hd_write_back (data : byte) (rx : list byte) :
  hd data (write_back [data] rx) = hd data rx.
Proof. destruct rx as [|r rx]; reflexivity. Qed.

Lemma transfer16_effect (data : Z) (w : World) :
  let set := negb (SPISettings.getBitOrder (cached w) =? 0) in
  let skip := SPISettings.getSkipRecv (cached w) in
  let tx := bytes_of_uint16 (if set then swap16 data else data) in
  let rx := uint16_of_bytes (eval (spi_transfer tx 2 SPI_TRANSFER_TIMEOUT skip) w) in
  trace (exec (transfer16 data) w) =
  trace w ++ [Call_spi_transfer tx 2 SPI_TRANSFER_TIMEOUT skip] /\
  eval (transfer16 data) w = (if set then swap16 rx else rx).
Proof.
  cbv zeta. unfold transfer16, exec, eval, bind, get_spiSettings, ret, spi_transfer.
  fold (cached w).
  destruct (hal_spi_transfer _ _ _ _ _ _) as [[h s] rx]. simpl.
  split; reflexivity.
Qed.

(** C3.  On a [uint16_t] the byte swap is its own inverse.  With a nonzero
    cached bit order [transfer16] hands the swapped word to [spi_transfer]
    and returns the swap of the word the HAL left in the buffer; with a zero
    bit order it hands over and returns the words as they are.  So a HAL
    that leaves the buffer as it got it makes [transfer16] return its
    argument. *)
Theorem transfer16_byte_swap (data : Z) (w : World) :
  0 <= data < 65536 ->
  let order := SPISettings.getBitOrder (cached w) in
  let skip := SPISettings.getSkipRecv (cached w) in
  let reply tx :=
    uint16_of_bytes
      (eval (spi_transfer (bytes_of_uint16 tx) 2 SPI_TRANSFER_TIMEOUT skip) w) in
  swap16 (swap16 data) = data /\
  (order <> 0 ->
   trace (exec (transfer16 data) w) =
   trace w ++ [Call_spi_transfer (bytes_of_uint16 (swap16 data)) 2
                                 SPI_TRANSFER_TIMEOUT skip] /\
   eval (transfer16 data) w = swap16 (reply (swap16 data)) /\
   (reply (swap16 data) = swap16 data -> eval (transfer16 data) w = data)) /\
  (order = 0 ->
   trace (exec (transfer16 data) w) =
   trace w ++ [Call_spi_transfer (bytes_of_uint16 data) 2
                                 SPI_TRANSFER_TIMEOUT skip] /\
   eval (transfer16 data) w = reply data).
Proof.
  intros Hd. cbv zeta.
  assert (Hinv : swap16 (swap16 data) = data)
    by (rewrite swap16_swap16; apply uint16_small; exact Hd).
  destruct (transfer16_effect data w) as [Ht Hr]. cbv zeta in Ht, Hr.
  split; [exact Hinv|]. split; intros Ho.
  - apply Z.eqb_neq in Ho. rewrite Ho in Ht, Hr. simpl in Ht, Hr.
    repeat split; try assumption.
    intros Hecho. rewrite Hr, Hecho. exact Hinv.
  - apply Z.eqb_eq in Ho. rewrite Ho in Ht, Hr. simpl in Ht, Hr.
    split; assumption.
Qed.

(** C5, as amended.  [transfer(uint8_t)] and [transfer16] each call
    [spi_transfer] exactly once, with the timeout [SPI_TRANSFER_TIMEOUT] and
    the cached skip-receive flag: [transfer(uint8_t)] passes its byte as a
    buffer of length 1 and returns the byte the HAL left there, [transfer16]
    passes the two bytes of its (possibly swapped) word.
    [transfer(buf, count)] makes the same kind of call, on the caller's
    buffer and count, when [count] is not 0 and [buf] is not [NULL], and
    returns the buffer as the HAL left it; otherwise it calls nothing and
    changes nothing. *)
Theorem transfers_forward (w : World) :
  let skip := SPISettings.getSkipRecv (cached w) in
  (forall data,
      trace (exec (transfer data) w) =
      trace w ++ [Call_spi_transfer [data] 1 SPI_TRANSFER_TIMEOUT skip] /\
      eval (transfer data) w =
      hd data (snd (hal_spi_transfer (hw w) (_spi (this w)) [data] 1
                                     SPI_TRANSFER_TIMEOUT skip))) /\
  (forall data,
      trace (exec (transfer16 data) w) =
      trace w ++
      [Call_spi_transfer
         (bytes_of_uint16
            (if negb (SPISettings.getBitOrder (cached w) =? 0)
             then swap16 data else data))
         2 SPI_TRANSFER_TIMEOUT skip]) /\
  (forall buf count,
      (count <> 0 -> buf <> None ->
       trace (exec (transfer_buf buf count) w) =
       trace w ++
       [Call_spi_transfer (deref buf) count SPI_TRANSFER_TIMEOUT skip] /\
       eval (transfer_buf buf count) w =
       Some (eval (spi_transfer (deref buf) count SPI_TRANSFER_TIMEOUT skip)
                  w)) /\
      (count = 0 \/ buf = None -> transfer_buf buf count w = (buf, w))).
Proof.
  cbv zeta. split; [|split].
  - intros data. split.
    + unfold transfer, exec, bind, get_spiSettings, ret, spi_transfer.
      fold (cached w). destruct (hal_spi_transfer _ _ _ _ _ _) as [[h s] rx].
      reflexivity.
    + unfold transfer, eval, bind, get_spiSettings, ret, spi_transfer.
      fold (cached w). destruct (hal_spi_transfer _ _ _ _ _ _) as [[h s] rx].
      simpl. apply hd_write_back.
  - intros data. destruct (transfer16_effect data w) as [Ht _]. exact Ht.
  - intros buf count. split.
    + intros Hcount Hbuf. apply Z.eqb_neq in Hcount.
      destruct buf as [b|]; [|contradiction].
      unfold transfer_buf, exec, eval, bind, get_spiSettings, ret,
        spi_transfer.
      rewrite Hcount. simpl. fold (cached w).
      destruct (hal_spi_transfer _ _ _ _ _ _) as [[h s] rx].
      split; reflexivity.
    + intros [-> | ->]; unfold transfer_buf.
      * reflexivity.
      * rewrite andb_false_r. reflexivity.
Qed.

(** C6.  [transfer(buf, count)] calls [spi_transfer] if and only if [count]
    is not 0 and [buf] is not [NULL]; it then passes the buffer and the
    count.  Otherwise it returns with the buffer and the world as they
    were. *)
Theorem transfer_buf_guard (buf : option (list byte)) (count : Z) (w : World) :
  (count <> 0 /\ buf <> None <->
   spi_transfer_calls (trace (exec (transfer_buf buf count) w)) =
   S (spi_transfer_calls (trace w))) /\
  (count <> 0 /\ buf <> None ->
   trace (exec (transfer_buf buf count) w) =
   trace w ++ [Call_spi_transfer (deref buf) count SPI_TRANSFER_TIMEOUT
                                 (SPISettings.getSkipRecv (cached w))]) /\
  (count = 0 \/ buf = None -> transfer_buf buf count w = (buf, w)).
Proof.
  assert (Hcall : negb (count =? 0) && negb (is_NULL buf) = true ->
          trace (exec (transfer_buf buf count) w) =
          trace w ++ [Call_spi_transfer (deref buf) count SPI_TRANSFER_TIMEOUT
                                        (SPISettings.getSkipRecv (cached w))]).
  { intros Hg. unfold transfer_buf. rewrite Hg.
    unfold exec, bind, get_spiSettings, ret, spi_transfer.
    fold (cached w). destruct (hal_spi_transfer _ _ _ _ _ _) as [[h s] rx].
    reflexivity. }
  assert (Hskip : negb (count =? 0) && negb (is_NULL buf) = false ->
          transfer_buf buf count w = (buf, w)).
  { intros Hg. unfold transfer_buf. rewrite Hg. reflexivity. }
  assert (Hguard : negb (count =? 0) && negb (is_NULL buf) = true <->
          count <> 0 /\ buf <> None).
  { rewrite andb_true_iff, !negb_true_iff, Z.eqb_neq.
    destruct buf; simpl; intuition congruence. }
  destruct (negb (count =? 0) && negb (is_NULL buf)) eqn:Hg.
  - specialize (Hcall eq_refl). apply proj1 in Hguard.
    specialize (Hguard eq_refl). split; [split|split].
    + intros _. rewrite Hcall, spi_transfer_calls_app.
      unfold spi_transfer_calls. simpl. lia.
    + intros _. exact Hguard.
    + intros _. exact Hcall.
    + intros [H0|HN]; tauto.
  - specialize (Hskip eq_refl).
    assert (Hn : ~ (count <> 0 /\ buf <> None))
      by (intros H; apply Hguard in H; discriminate).
    split; [split|split].
    + intros H. contradiction.
    + unfold exec. rewrite Hskip. simpl. intros H. lia.
    + intros H. contradiction.
    + intros _. exact Hskip.
Qed.

(** *** The cache and the configuration of the HAL *)

Lemma spi_deinit_effect (w : World) :
  cached (exec spi_deinit w) = cached w /\
  trace (exec spi_deinit w) = trace w ++ [Call_spi_deinit].
Proof.
  unfold exec, spi_deinit, cached.
  destruct (hal_spi_deinit _ _) as [h s]. simpl. auto.
Qed.

Lemma transfer_world (data : byte) (w : World) :
  exec (transfer data) w =
  exec (spi_transfer [data] 1 SPI_TRANSFER_TIMEOUT
                     (SPISettings.getSkipRecv (cached w))) w.
Proof.
  unfold transfer, exec, bind, get_spiSettings, ret, spi_transfer.
  fold (cached w). now destruct (hal_spi_transfer _ _ _ _ _ _) as [[h s] rx].
Qed.

Lemma transfer16_world (data : Z) (w : World) :
  exists tx,
    exec (transfer16 data) w =
    exec (spi_transfer tx 2 SPI_TRANSFER_TIMEOUT
                       (SPISettings.getSkipRecv (cached w))) w.
Proof.
  exists (bytes_of_uint16
            (if negb (SPISettings.getBitOrder (cached w) =? 0)
             then swap16 data else data)).
  unfold transfer16, exec, bind, get_spiSettings, ret, spi_transfer.
  fold (cached w). now destruct (hal_spi_transfer _ _ _ _ _ _) as [[h s] rx].
Qed.

Lemma transfer_buf_world (buf : option (list byte)) (count : Z) (w : World) :
  exec (transfer_buf buf count) w =
  if negb (count =? 0) && negb (is_NULL buf)
  then exec (spi_transfer (deref buf) count SPI_TRANSFER_TIMEOUT
                          (SPISettings.getSkipRecv (cached w))) w
  else w.
Proof.
  unfold transfer_buf. destruct (negb (count =? 0) && negb (is_NULL buf)).
  - unfold exec, bind, get_spiSettings, ret, spi_transfer.
    fold (cached w). now destruct (hal_spi_transfer _ _ _ _ _ _) as [[h s] rx].
  - reflexivity.
Qed.

Lemma sound_step_refl (w : World) : sound_step w w.
Proof.
  exists []. rewrite app_nil_r. repeat split. constructor.
Qed.

Lemma sound_step_init (w w' : World) :
  trace w' = trace w ++ [Call_spi_init (SPISettings.getClockFreq (cached w'))
                                       (SPISettings.getDataMode (cached w'))
                                       (SPISettings.getBitOrder (cached w'))] ->
  sound_step w w'.
Proof.
  intros Ht. eexists. split; [exact Ht|]. split.
  - repeat constructor.
  - discriminate.
Qed.

Lemma sound_step_other (w w' : World) (c : HalCall) :
  is_spi_init c = false ->
  cached w' = cached w /\ trace w' = trace w ++ [c] ->
  sound_step w w'.
Proof.
  intros Hc [Hs Ht]. exists [c]. split; [exact Ht|]. split.
  - constructor; [|constructor]. destruct c; try exact I. discriminate.
  - intros _. exact Hs.
Qed.

Lemma step_sound (o : Op) (w : World) : sound_step w (step o w).
Proof.
  destruct o; simpl step; try apply sound_step_refl.
  - destruct (begin_effect w) as [Hc Ht]. cbv zeta in Hc, Ht.
    apply sound_step_init. rewrite Hc. exact Ht.
  - destruct (SPISettings.neb (cached w) settings) eqn:Hne.
    + destruct (beginTransaction_changed settings w Hne) as [Hc Ht].
      apply sound_step_init. rewrite Hc. exact Ht.
    + unfold exec. rewrite (beginTransaction_same settings w Hne).
      apply sound_step_refl.
  - apply sound_step_other with Call_spi_deinit; [reflexivity|].
    apply spi_deinit_effect.
  - destruct (setBitOrder_effect bitOrder w) as [Hc Ht]. cbv zeta in Hc, Ht.
    apply sound_step_init. rewrite Hc. exact Ht.
  - destruct (setDataMode_effect mode w) as [Hc Ht]. cbv zeta in Hc, Ht.
    apply sound_step_init. rewrite Hc. exact Ht.
  - destruct (setDataMode_effect (SPIMode_of_uint8 mode) w) as [Hc Ht].
    cbv zeta in Hc, Ht. apply sound_step_init.
    unfold setDataMode_uint8. rewrite Hc. exact Ht.
  - destruct (Z.eq_dec _divider 0) as [->|Hd].
    + destruct (setClockDivider_zero w) as [Hc Ht]. cbv zeta in Hc, Ht.
      apply sound_step_init. rewrite Hc. exact Ht.
    + destruct (setClockDivider_nonzero _divider w Hd) as [Hc Ht].
      cbv zeta in Hc, Ht. eexists. split; [exact Ht|]. split.
      * rewrite Hc. repeat constructor.
      * discriminate.
  - rewrite transfer_world.
    eapply sound_step_other; [|apply spi_transfer_effect]. reflexivity.
  - destruct (transfer16_world data w) as [tx ->].
    eapply sound_step_other; [|apply spi_transfer_effect]. reflexivity.
  - rewrite transfer_buf_world.
    destruct (negb (count =? 0) && negb (is_NULL buf)).
    + eapply sound_step_other; [|apply spi_transfer_effect]. reflexivity.
    + apply sound_step_refl.
Qed.

Lemma last_spi_init_passes (cfg : Z * SPIMode * BitOrder) (evs : list HalCall) :
  Forall (init_passes cfg) evs ->
  last_spi_init evs = None \/ last_spi_init evs = Some cfg.
Proof.
  induction 1 as [|c evs Hc _ IH]; simpl.
  - now left.
  - destruct IH as [-> | ->]; [|now right].
    destruct c; simpl in Hc; auto. right. now rewrite Hc.
Qed.

Lemma sound_step_consistent (w w' : World) :
  sound_step w w' -> cache_consistent w -> cache_consistent w'.
Proof.
  intros (evs & Ht & Hall & Hsame) Hw. unfold cache_consistent in *.
  rewrite Ht, last_spi_init_app.
  destruct (last_spi_init_passes _ _ Hall) as [Hn | Hs].
  - rewrite Hn. rewrite (Hsame Hn). exact Hw.
  - rewrite Hs. reflexivity.
Qed.

Lemma steps_consistent (ops : list Op) (w : World) :
  cache_consistent w -> cache_consistent (steps ops w).
Proof.
  revert w. induction ops as [|o ops IH]; intros w Hw; simpl.
  - exact Hw.
  - apply IH. apply (sound_step_consistent w); [apply step_sound | exact Hw].
Qed.

(** C8.  Whatever public method is called, in whatever state, each
    [spi_init] it makes passes the clock frequency, data mode and bit order
    cached at that time.  Hence, along any sequence of calls, the
    configuration last passed to [spi_init] is the cached one. *)
Theorem spi_init_passes_cached (ops : list Op) (w : World) :
  (forall o, exists evs,
      trace (step o w) = trace w ++ evs /\
      Forall (init_passes (SPISettings.config (cached (step o w)))) evs) /\
  (cache_consistent w -> cache_consistent (steps ops w)).
Proof.
  split.
  - intros o. destruct (step_sound o w) as (evs & Ht & Hall & _).
    exists evs. split; assumption.
  - apply steps_consistent.
Qed.

End Methods.

(** ** The methods on the bench *)

Section OnTheBench.

Import SPIClass.
#[local] Existing Instance Bench.hal.

(** C1, as first stated, fails: after [begin] the cached bit order is 1,
    the data mode 0 and the clock 4 MHz, so [setBitOrder(1)],
    [setDataMode(0)] and [setClockDivider(18)] (72 MHz / 18) each ask for
    the settings already cached, and each calls [spi_init] again. *)
Lemma setters_reinit_unchanged :
  ~ reinit_only_on_change (setBitOrder 1)
      (SPISettings.setBitOrder 1 (cached Bench.w1)) Bench.w1 /\
  ~ reinit_only_on_change (setDataMode 0)
      (SPISettings.setDataMode 0 (cached Bench.w1)) Bench.w1 /\
  ~ reinit_only_on_change (setClockDivider 18)
      (SPISettings.setClockFreq (72000000 / 18) (cached Bench.w1)) Bench.w1.
Proof.
  repeat split; intros H; apply H;
    solve [vm_compute; discriminate | reflexivity].
Qed.

Lemma beginTransaction_spec_witness :
  let s1 := SPISettings.mk 8000000 0 3 false in
  (cached Bench.w1 <> s1 /\
   cached (exec (beginTransaction s1) Bench.w1) = s1 /\
   trace (exec (beginTransaction s1) Bench.w1) =
   trace Bench.w1 ++ [Call_spi_init 8000000 3 0]) /\
  (cached Bench.w1 = DEFAULT_SPI_SETTINGS /\
   beginTransaction DEFAULT_SPI_SETTINGS Bench.w1 = (tt, Bench.w1)).
Proof.
  cbv zeta. split.
  - assert (Hne : cached Bench.w1 <> SPISettings.mk 8000000 0 3 false)
      by (vm_compute; discriminate).
    split; [exact Hne|].
    exact (proj1 (beginTransaction_spec _ Bench.w1) Hne).
  - split; [reflexivity|].
    exact (proj2 (beginTransaction_spec _ Bench.w1) eq_refl).
Defined.

Lemma transfer16_byte_swap_witness :
  0 <= 0x1234 < 65536 /\
  SPISettings.getBitOrder (cached Bench.w1) <> 0 /\
  trace (exec (transfer16 0x1234) Bench.w1) =
  trace Bench.w1 ++ [Call_spi_transfer [x12; x34] 2 1000 false] /\
  eval (transfer16 0x1234) Bench.w1 = 0xa53c.
Proof.
  assert (Hd : 0 <= 0x1234 < 65536) by lia.
  assert (Ho : SPISettings.getBitOrder (cached Bench.w1) <> 0)
    by (vm_compute; discriminate).
  destruct (transfer16_byte_swap 0x1234 Bench.w1 Hd) as (_ & Hset & _).
  destruct (Hset Ho) as (Ht & Hr & _).
  split; [exact Hd|]. split; [exact Ho|]. split.
  - rewrite Ht. reflexivity.
  - rewrite Hr. reflexivity.
Defined.

Lemma setClockDivider_spec_witness :
  (SPISettings.getClockFreq (cached (exec (setClockDivider 0) Bench.w0)) =
   4000000) /\
  (1 <= 7 <= 255 /\
   SPISettings.getClockFreq (cached (exec (setClockDivider 7) Bench.w0)) =
   10285714 /\
   trace (exec (setClockDivider 7) Bench.w0) =
   [Call_spi_getClkFreq; Call_spi_init 10285714 0 1]).
Proof.
  split.
  - destruct (setClockDivider_spec 0 Bench.w0) as (H0 & _).
    destruct (H0 eq_refl) as [Hq _]. exact Hq.
  - assert (Hr : 1 <= 7 <= 255) by lia.
    split; [exact Hr|].
    destruct (setClockDivider_spec 7 Bench.w0) as (_ & H7 & _).
    destruct (H7 Hr) as (Hq & _ & Ht).
    split; [rewrite Hq; reflexivity | rewrite Ht; reflexivity].
Defined.

(** C5, as first stated, fails for [transfer(buf, count)]: with a [NULL]
    buffer, or with a count of 0, nothing is forwarded to [spi_transfer]. *)
Lemma transfer_buf_not_forwarded :
  ~ forwards_to_spi_transfer (transfer_buf None 3) Bench.w1 /\
  ~ forwards_to_spi_transfer (transfer_buf (Some [x01; x02]) 0) Bench.w1.
Proof.
  split; intros (buffer & len & H); vm_compute in H; discriminate H.
Qed.

Lemma transfers_forward_witness :
  (3 <> 0 /\ Some [x01; x02; x03] <> None /\
   trace (exec (transfer_buf (Some [x01; x02; x03]) 3) Bench.w1) =
   trace Bench.w1 ++ [Call_spi_transfer [x01; x02; x03] 3 1000 false] /\
   eval (transfer_buf (Some [x01; x02; x03]) 3) Bench.w1 =
   Some [xa5; x3c; x0f]) /\
  (transfer_buf None 3 Bench.w1 = (None, Bench.w1)) /\
  (transfer_buf (Some [x01; x02]) 0 Bench.w1 = (Some [x01; x02], Bench.w1)).
Proof.
  assert (Hc : 3 <> 0) by discriminate.
  assert (Hb : Some [x01; x02; x03] <> @None (list byte)) by discriminate.
  pose proof (proj2 (proj2 (transfers_forward Bench.w1))) as H.
  cbv zeta in H.
  split; [|split].
  - split; [exact Hc|]. split; [exact Hb|].
    exact (proj1 (H (Some [x01; x02; x03]) 3) Hc Hb).
  - apply (proj2 (H None 3)). right. reflexivity.
  - apply (proj2 (H (Some [x01; x02]) 0)). left. reflexivity.
Defined.

Lemma transfer_buf_guard_witness :
  (3 <> 0 /\ Some [x01; x02; x03] <> None /\
   trace (exec (transfer_buf (Some [x01; x02; x03]) 3) Bench.w1) =
   trace Bench.w1 ++ [Call_spi_transfer [x01; x02; x03] 3 1000 false]) /\
  (transfer_buf None 3 Bench.w1 = (None, Bench.w1)) /\
  (transfer_buf (Some [x01]) 0 Bench.w1 = (Some [x01], Bench.w1)).
Proof.
  split; [|split].
  - assert (Hg : 3 <> 0 /\ Some [x01; x02; x03] <> @None (list byte))
      by (split; discriminate).
    split; [apply Hg|]. split; [apply Hg|].
    destruct (transfer_buf_guard (Some [x01; x02; x03]) 3 Bench.w1)
      as (_ & Hcall & _).
    exact (Hcall Hg).
  - destruct (transfer_buf_guard None 3 Bench.w1) as (_ & _ & Hskip).
    apply Hskip. right. reflexivity.
  - destruct (transfer_buf_guard (Some [x01]) 0 Bench.w1) as (_ & _ & Hskip).
    apply Hskip. left. reflexivity.
Defined.

Lemma spi_init_passes_cached_witness :
  let ops := [OpBegin; OpTransfer x42; OpSetClockDivider 4;
              OpBeginTransaction (SPISettings.mk 1000000 0 2 true);
              OpTransfer16 0xbeef; OpEnd] in
  cache_consistent Bench.w0 /\
  cache_consistent (steps ops Bench.w0) /\
  last_spi_init (trace (steps ops Bench.w0)) = Some (1000000, 2, 0).
Proof.
  cbv zeta.
  assert (H0 : cache_consistent Bench.w0) by exact I.
  split; [exact H0|]. split.
  - exact (proj2 (spi_init_passes_cached _ Bench.w0) H0).
  - reflexivity.
Defined.

End OnTheBench.

(** * Further properties of the methods *)

(** ** Words from bytes, arithmetically *)

Lemma lor_shiftl8 (a c : Z) :
  0 <= a < 256 -> Z.lor a (Z.shiftl c 8) = a + 256 * c.
Proof.
  intros Ha.
  assert (Hdisj : Z.land a (Z.shiftl c 8) = 0).
  { apply Z.bits_inj'. intros n Hn.
    rewrite Z.land_spec, Z.bits_0.
    destruct (Z.ltb_spec n 8) as [H8|H8].
    - rewrite Z.shiftl_spec, (Z.testbit_neg_r c (n - 8)) by lia.
      apply andb_false_r.
    - rewrite <- (Z.mod_small a (2 ^ 8)) by (change (2 ^ 8) with 256; lia).
      rewrite Z.mod_pow2_bits_high by lia. reflexivity. }
  rewrite <- Z.lxor_lor, <- Z.add_nocarry_lxor by exact Hdisj.
  rewrite Z.shiftl_mul_pow2 by lia. change (2 ^ 8) with 256. lia.
Qed.

Lemma uint16_of_bytes_pair (a b : byte) :
  uint16_of_bytes [a; b] = Z_of_byte a + 256 * Z_of_byte b.
Proof.
  unfold uint16_of_bytes. cbn [nth]. apply lor_shiftl8. apply Z_of_byte_range.
Qed.

Lemma uint16_of_bytes_range (buf : list byte) :
  0 <= uint16_of_bytes buf < 65536.
Proof.
  unfold uint16_of_bytes.
  rewrite lor_shiftl8 by apply Z_of_byte_range.
  pose proof (Z_of_byte_range (nth 0 buf x00)).
  pose proof (Z_of_byte_range (nth 1 buf x00)). lia.
Qed.

Lemma swap16_arith (d : Z) :
  0 <= d < 65536 -> SPIClass.swap16 d = 256 * (d mod 256) + d / 256.
Proof.
  intros Hd. unfold SPIClass.swap16.
  change 0xff00 with (Z.shiftl 255 8).
  assert (Hhi : Z.shiftr (Z.land d (Z.shiftl 255 8)) 8 = d / 256).
  { rewrite Z.shiftr_land, Z.shiftr_shiftl_l by lia.
    change (Z.shiftl 255 (8 - 8)) with (Z.ones 8).
    rewrite Z.land_ones, Z.shiftr_div_pow2 by lia.
    change (2 ^ 8) with 256. apply Z.mod_small.
    split; [apply Z.div_pos; lia | apply Z.div_lt_upper_bound; lia]. }
  assert (Hlo : Z.land d 255 = d mod 256).
  { change 255 with (Z.ones 8). rewrite Z.land_ones by lia. reflexivity. }
  rewrite Hhi, Hlo.
  assert (Hq : 0 <= d / 256 < 256)
    by (split; [apply Z.div_pos; lia | apply Z.div_lt_upper_bound; lia]).
  pose proof (Z.mod_pos_bound d 256 ltac:(lia)) as Hr.
  rewrite lor_shiftl8 by exact Hq.
  rewrite uint16_small by lia. lia.
Qed.

Lemma byte_of_Z_mod (z : Z) : byte_of_Z (z mod 256) = byte_of_Z z.
Proof.
  unfold byte_of_Z, uint8. change (2 ^ 8) with 256.
  rewrite Z.mod_mod by lia. reflexivity.
Qed.

Lemma bytes_of_uint16_arith (d : Z) :
  bytes_of_uint16 d = [byte_of_Z (d mod 256); byte_of_Z (d / 256)].
Proof.
  unfold bytes_of_uint16. change 255 with (Z.ones 8).
  rewrite Z.land_ones, Z.shiftr_div_pow2 by lia. reflexivity.
Qed.

Lemma bytes_of_swap16 (d : Z) :
  0 <= d < 65536 ->
  bytes_of_uint16 (SPIClass.swap16 d) =
  [byte_of_Z (d / 256); byte_of_Z (d mod 256)].
Proof.
  intros Hd. rewrite bytes_of_uint16_arith, swap16_arith by exact Hd.
  assert (Hq : 0 <= d / 256 < 256)
    by (split; [apply Z.div_pos; lia | apply Z.div_lt_upper_bound; lia]).
  pose proof (Z.mod_pos_bound d 256 ltac:(lia)) as Hr.
  replace ((256 * (d mod 256) + d / 256) mod 256) with (d / 256).
  2:{ rewrite Z.add_comm, Z.mul_comm, Z.mod_add by lia.
      symmetry. apply Z.mod_small. exact Hq. }
  replace ((256 * (d mod 256) + d / 256) / 256) with (d mod 256).
  2:{ rewrite Z.add_comm, Z.mul_comm, Z.div_add by lia.
      rewrite (Z.div_small (d / 256)) by exact Hq. reflexivity. }
  reflexivity.
Qed.

Lemma swap16_of_bytes (a b : byte) :
  SPIClass.swap16 (uint16_of_bytes [a; b]) = 256 * Z_of_byte a + Z_of_byte b.
Proof.
  pose proof (Z_of_byte_range a) as Ha. pose proof (Z_of_byte_range b) as Hb.
  rewrite swap16_arith by apply uint16_of_bytes_range.
  rewrite uint16_of_bytes_pair.
  replace ((Z_of_byte a + 256 * Z_of_byte b) mod 256) with (Z_of_byte a).
  2:{ rewrite (Z.mul_comm 256), Z.mod_add by lia.
      symmetry. apply Z.mod_small. exact Ha. }
  replace ((Z_of_byte a + 256 * Z_of_byte b) / 256) with (Z_of_byte b).
  2:{ rewrite (Z.mul_comm 256), Z.div_add by lia.
      rewrite (Z.div_small (Z_of_byte a)) by exact Ha. reflexivity. }
  reflexivity.
Qed.

Lemma write_back_pair (x y : byte) (rx : list byte) :
  exists a b, write_back [x; y] rx = [a; b].
Proof.
  destruct rx as [|r1 [|r2 rx]]; unfold write_back; simpl; eauto.
  destruct rx; simpl; eauto.
Qed.

Section MoreMethods.

Context {hal : HAL}.
Import SPIClass.

Ltac count_inits :=
  rewrite ?spi_init_calls_app; unfold spi_init_calls; simpl; lia.

Ltac frame_done :=
  unfold exec, endTransaction, usingInterrupt, notUsingInterrupt,
    attachInterrupt, detachInterrupt, ret; simpl snd;
  split;
  [ intros H; try discriminate H; split; first [reflexivity | count_inits]
  | split;
    [ intros H; try discriminate H; reflexivity
    | first [count_inits | simpl; lia] ] ].

Lemma beginTransaction_cached (settings : SPISettings.t) (w : World) :
  cached (exec (beginTransaction settings) w) = settings.
Proof.
  destruct (SPISettings.neb (cached w) settings) eqn:Hne.
  - apply beginTransaction_changed. exact Hne.
  - unfold exec. rewrite (beginTransaction_same settings w Hne). simpl.
    apply SPISettings_neb_false. exact Hne.
Qed.

Lemma neb_refl (s : SPISettings.t) : SPISettings.neb s s = false.
Proof. apply SPISettings_neb_false. reflexivity. Qed.

Lemma spi_getClkFreq_range (w : World) : 0 <= eval spi_getClkFreq w < 2 ^ 32.
Proof.
  unfold eval, spi_getClkFreq.
  destruct (hal_spi_getClkFreq _ _) as [[h s] f]. simpl.
  unfold uint32. apply Z.mod_pos_bound. reflexivity.
Qed.

(** *** begin, end and transactions *)

(** X1.  [begin] starts from scratch: the settings cached before and the state
    of the handle do not influence it.  It caches the default settings and
    calls [spi_init] once, with them. *)
Theorem begin_forgets (s : SPISettings.t) (st : Z) (w : World) :
  begin (exec (set_handle_State st) (exec (set_spiSettings s) w)) = begin w /\
  cached (exec begin w) = DEFAULT_SPI_SETTINGS /\
  trace (exec begin w) =
  trace w ++ [Call_spi_init (SPISettings.getClockFreq DEFAULT_SPI_SETTINGS)
                            (SPISettings.getDataMode DEFAULT_SPI_SETTINGS)
                            (SPISettings.getBitOrder DEFAULT_SPI_SETTINGS)].
Proof.
  split; [reflexivity|]. exact (begin_effect w).
Qed.

(** X2.  After [beginTransaction(s)] the cache holds [s], whichever branch was
    taken, and a second [beginTransaction(s)] does nothing at all. *)
Theorem beginTransaction_idempotent (settings : SPISettings.t) (w : World) :
  cached (exec (beginTransaction settings) w) = settings /\
  beginTransaction settings (exec (beginTransaction settings) w) =
  (tt, exec (beginTransaction settings) w).
Proof.
  split; [apply beginTransaction_cached|].
  apply beginTransaction_same.
  rewrite beginTransaction_cached. apply neb_refl.
Qed.

(** X3.  Right after [begin], a transaction on the default settings does not
    initialise the peripheral a second time. *)
Theorem begin_then_default_transaction (w : World) :
  beginTransaction DEFAULT_SPI_SETTINGS (exec begin w) = (tt, exec begin w).
Proof.
  apply beginTransaction_same.
  destruct (begin_effect w) as [Hc _]. cbv zeta in Hc.
  rewrite Hc. apply neb_refl.
Qed.

(** X4.  [end] calls [spi_deinit] and keeps the cache.  So a transaction on the
    cached settings that follows [end] makes no call: the peripheral stays
    deinitialised. *)
Theorem end_keeps_cache (w : World) :
  cached (exec end_ w) = cached w /\
  trace (exec end_ w) = trace w ++ [Call_spi_deinit] /\
  beginTransaction (cached w) (exec end_ w) = (tt, exec end_ w).
Proof.
  destruct (spi_deinit_effect w) as [Hc Ht].
  split; [exact Hc|]. split; [exact Ht|].
  apply beginTransaction_same. unfold end_. rewrite Hc. apply neb_refl.
Qed.

(** *** The deprecated setters *)

(** X6.  A setter that changes its field is the transaction on the cached
    settings with that field replaced: same world, same calls. *)
Theorem setter_as_transaction (w : World) :
  (forall bitOrder,
      bitOrder <> SPISettings.getBitOrder (cached w) ->
      setBitOrder bitOrder w =
      beginTransaction (SPISettings.setBitOrder bitOrder (cached w)) w) /\
  (forall mode,
      mode <> SPISettings.getDataMode (cached w) ->
      setDataMode mode w =
      beginTransaction (SPISettings.setDataMode mode (cached w)) w).
Proof.
  split.
  - intros bitOrder Hb.
    assert (Hne : SPISettings.neb (cached w)
                    (SPISettings.setBitOrder bitOrder (cached w)) = true).
    { apply SPISettings_neb_true. intros Heq. apply Hb.
      rewrite Heq. reflexivity. }
    unfold beginTransaction, bind, get_spiSettings.
    fold (cached w). rewrite Hne. reflexivity.
  - intros mode Hm.
    assert (Hne : SPISettings.neb (cached w)
                    (SPISettings.setDataMode mode (cached w)) = true).
    { apply SPISettings_neb_true. intros Heq. apply Hm.
      rewrite Heq. reflexivity. }
    unfold beginTransaction, bind, get_spiSettings.
    fold (cached w). rewrite Hne. reflexivity.
Qed.

(** X7.  For a divider from 1 to 255 the cached frequency [q] lies between 0 and
    the peripheral clock [f], which fits 32 bits; it is 0 exactly when the
    clock is below the divider, and the clock itself for the divider 1. *)
Theorem setClockDivider_bounds (d : Z) (w : World) :
  1 <= d <= 255 ->
  let f := eval spi_getClkFreq w in
  let q := SPISettings.getClockFreq (cached (exec (setClockDivider d) w)) in
  0 <= q <= f /\ f < 2 ^ 32 /\ (q = 0 <-> f < d) /\ (d = 1 -> q = f).
Proof.
  intros Hd. cbv zeta.
  destruct (setClockDivider_nonzero d w ltac:(lia)) as [Hc _].
  cbv zeta in Hc. rewrite Hc. simpl.
  pose proof (spi_getClkFreq_range w) as Hf.
  set (f := eval spi_getClkFreq w) in *.
  assert (Hq0 : 0 <= f / d) by (apply Z.div_pos; lia).
  assert (Hlo : d * (f / d) <= f) by (apply Z.mul_div_le; lia).
  assert (Hhi : f < d * Z.succ (f / d)) by (apply Z.mul_succ_div_gt; lia).
  split; [split; [exact Hq0 | nia]|].
  split; [apply Hf|]. split; [split|].
  - intros H0. rewrite H0 in Hhi. lia.
  - intros Hlt. apply Z.div_small. lia.
  - intros ->. apply Z.div_1_r.
Qed.

(** *** Transfers of a word *)

(** X8.  On a [uint16_t] the swap exchanges the two bytes: the low byte of the
    result is the high byte of the argument, and conversely. *)
Theorem swap16_exchanges_bytes (d : Z) :
  0 <= d < 65536 ->
  swap16 d = 256 * (d mod 256) + d / 256 /\
  swap16 d mod 256 = d / 256 /\
  swap16 d / 256 = d mod 256.
Proof.
  intros Hd. rewrite swap16_arith by exact Hd.
  assert (Hq : 0 <= d / 256 < 256)
    by (split; [apply Z.div_pos; lia | apply Z.div_lt_upper_bound; lia]).
  split; [reflexivity|]. split.
  - rewrite Z.add_comm, Z.mul_comm, Z.mod_add by lia.
    apply Z.mod_small. exact Hq.
  - rewrite Z.add_comm, Z.mul_comm, Z.div_add by lia.
    rewrite Z.div_small by exact Hq. reflexivity.
Qed.

(** X9.  The order of the bytes of [transfer16] on the bus.  With a nonzero bit
    order the buffer given to the HAL holds the high byte of the word, then
    the low byte, and the result is 256 times the first byte of the buffer
    after the call plus the second; with a zero bit order the low byte
    comes first, and the result is the first byte plus 256 times the
    second. *)
Theorem transfer16_wire_order (data : Z) (w : World) :
  0 <= data < 65536 ->
  let order := SPISettings.getBitOrder (cached w) in
  let skip := SPISettings.getSkipRecv (cached w) in
  let hi := byte_of_Z (data / 256) in
  let lo := byte_of_Z (data mod 256) in
  let tx := if order =? 0 then [lo; hi] else [hi; lo] in
  exists a b,
    eval (spi_transfer tx 2 SPI_TRANSFER_TIMEOUT skip) w = [a; b] /\
    trace (exec (transfer16 data) w) =
    trace w ++ [Call_spi_transfer tx 2 SPI_TRANSFER_TIMEOUT skip] /\
    eval (transfer16 data) w =
    if order =? 0 then Z_of_byte a + 256 * Z_of_byte b
    else 256 * Z_of_byte a + Z_of_byte b.
Proof.
  intros Hd. cbv zeta.
  destruct (transfer16_effect data w) as [Ht Hr]. cbv zeta in Ht, Hr.
  destruct (SPISettings.getBitOrder (cached w) =? 0) eqn:Ho;
    simpl negb in Ht, Hr; cbv iota in Ht, Hr.
  - rewrite bytes_of_uint16_arith in Ht, Hr.
    set (tx := [byte_of_Z (data mod 256); byte_of_Z (data / 256)]) in *.
    assert (Hbuf : exists a b,
               eval (spi_transfer tx 2 SPI_TRANSFER_TIMEOUT
                       (SPISettings.getSkipRecv (cached w))) w = [a; b]).
    { unfold eval, spi_transfer.
      destruct (hal_spi_transfer _ _ _ _ _ _) as [[h s] rx]. simpl.
      apply write_back_pair. }
    destruct Hbuf as (a & b & Hab). exists a, b.
    split; [exact Hab|]. split; [exact Ht|].
    rewrite Hr, Hab. apply uint16_of_bytes_pair.
  - rewrite bytes_of_swap16 in Ht, Hr by exact Hd.
    set (tx := [byte_of_Z (data / 256); byte_of_Z (data mod 256)]) in *.
    assert (Hbuf : exists a b,
               eval (spi_transfer tx 2 SPI_TRANSFER_TIMEOUT
                       (SPISettings.getSkipRecv (cached w))) w = [a; b]).
    { unfold eval, spi_transfer.
      destruct (hal_spi_transfer _ _ _ _ _ _) as [[h s] rx]. simpl.
      apply write_back_pair. }
    destruct Hbuf as (a & b & Hab). exists a, b.
    split; [exact Hab|]. split; [exact Ht|].
    rewrite Hr, Hab. apply swap16_of_bytes.
Qed.

(** X10.  Whatever the argument and whatever the HAL answers, the result of
    [transfer16] fits 16 bits. *)
Theorem transfer16_range (data : Z) (w : World) :
  0 <= eval (transfer16 data) w < 65536.
Proof.
  destruct (transfer16_effect data w) as [_ Hr]. cbv zeta in Hr.
  rewrite Hr.
  destruct (negb (SPISettings.getBitOrder (cached w) =? 0)).
  - apply swap16_range.
  - apply uint16_of_bytes_range.
Qed.

(** X11.  A transfer that follows [beginTransaction(s)] works with [s]: it passes
    the skip-receive flag of [s], and [transfer16] orders its bytes by the
    bit order of [s]. *)
Theorem transaction_then_transfer (settings : SPISettings.t) (w : World) :
  let w' := exec (beginTransaction settings) w in
  let skip := SPISettings.getSkipRecv settings in
  (forall data,
      trace (exec (transfer data) w') =
      trace w' ++ [Call_spi_transfer [data] 1 SPI_TRANSFER_TIMEOUT skip]) /\
  (forall data,
      trace (exec (transfer16 data) w') =
      trace w' ++
      [Call_spi_transfer
         (bytes_of_uint16
            (if SPISettings.getBitOrder settings =? 0 then data
             else swap16 data))
         2 SPI_TRANSFER_TIMEOUT skip]) /\
  (forall buf count,
      count <> 0 -> buf <> None ->
      trace (exec (transfer_buf buf count) w') =
      trace w' ++
      [Call_spi_transfer (deref buf) count SPI_TRANSFER_TIMEOUT skip]).
Proof.
  cbv zeta.
  pose proof (beginTransaction_cached settings w) as Hc.
  set (w' := exec (beginTransaction settings) w) in *.
  split; [|split].
  - intros data. rewrite transfer_world, Hc. apply spi_transfer_effect.
  - intros data. destruct (transfer16_effect data w') as [Ht _].
    cbv zeta in Ht. rewrite Hc in Ht. rewrite Ht.
    destruct (SPISettings.getBitOrder settings =? 0); reflexivity.
  - intros buf count Hcount Hbuf. rewrite transfer_buf_world, Hc.
    apply Z.eqb_neq in Hcount. rewrite Hcount.
    destruct buf as [b|]; [|contradiction]. simpl.
    apply spi_transfer_effect.
Qed.

(** *** What a sequence of calls can change *)

Lemma step_frame (o : Op) (w : World) :
  (stores_settings o = false ->
   cached (step o w) = cached w /\
   spi_init_calls (trace (step o w)) = spi_init_calls (trace w)) /\
  (replaces_settings o = false ->
   SPISettings.getSkipRecv (cached (step o w)) =
   SPISettings.getSkipRecv (cached w)) /\
  (spi_init_calls (trace (step o w)) <=
   spi_init_calls (trace w) + if stores_settings o then 1 else 0)%nat.
Proof.
  assert (Hxfer : forall buf len timeout skip,
             cached (exec (spi_transfer buf len timeout skip) w) = cached w /\
             spi_init_calls
               (trace (exec (spi_transfer buf len timeout skip) w)) =
             spi_init_calls (trace w)).
  { intros buf len timeout skip.
    destruct (spi_transfer_effect buf len timeout skip w) as [Hc Ht].
    split; [exact Hc|]. rewrite Ht. count_inits. }
  destruct o; simpl step; simpl stores_settings; simpl replaces_settings.
  - destruct (begin_effect w) as [_ Ht]. cbv zeta in Ht. rewrite Ht.
    frame_done.
  - split; [discriminate|]. split; [discriminate|].
    destruct (SPISettings.neb (cached w) settings) eqn:Hne.
    + destruct (beginTransaction_changed settings w Hne) as [_ Ht].
      rewrite Ht. count_inits.
    + unfold exec. rewrite (beginTransaction_same settings w Hne).
      simpl. lia.
  - frame_done.
  - destruct (spi_deinit_effect w) as [Hc Ht]. unfold end_.
    rewrite Hc, Ht. frame_done.
  - destruct (setBitOrder_effect bitOrder w) as [Hc Ht]. cbv zeta in Hc, Ht.
    rewrite Hc, Ht. frame_done.
  - destruct (setDataMode_effect mode w) as [Hc Ht]. cbv zeta in Hc, Ht.
    rewrite Hc, Ht. frame_done.
  - destruct (setDataMode_effect (SPIMode_of_uint8 mode) w) as [Hc Ht].
    cbv zeta in Hc, Ht. unfold setDataMode_uint8.
    rewrite Hc, Ht. frame_done.
  - destruct (Z.eq_dec _divider 0) as [->|Hd].
    + destruct (setClockDivider_zero w) as [Hc Ht]. cbv zeta in Hc, Ht.
      rewrite Hc, Ht. frame_done.
    + destruct (setClockDivider_nonzero _divider w Hd) as [Hc Ht].
      cbv zeta in Hc, Ht. rewrite Hc, Ht. frame_done.
  - rewrite transfer_world.
    destruct (Hxfer [data] 1 SPI_TRANSFER_TIMEOUT
                    (SPISettings.getSkipRecv (cached w))) as [Hc Hn].
    rewrite Hc, Hn. frame_done.
  - destruct (transfer16_world data w) as [tx ->].
    destruct (Hxfer tx 2 SPI_TRANSFER_TIMEOUT
                    (SPISettings.getSkipRecv (cached w))) as [Hc Hn].
    rewrite Hc, Hn. frame_done.
  - rewrite transfer_buf_world.
    destruct (negb (count =? 0) && negb (is_NULL buf)).
    + destruct (Hxfer (deref buf) count SPI_TRANSFER_TIMEOUT
                      (SPISettings.getSkipRecv (cached w))) as [Hc Hn].
      rewrite Hc, Hn. frame_done.
    + frame_done.
  - frame_done.
  - frame_done.
  - frame_done.
  - frame_done.
Qed.

(** X12.  Transfers, [end], [endTransaction] and the interrupt hooks, in any
    number and order, leave the cached settings as they are and never call
    [spi_init]. *)
Theorem transfers_keep_cache (ops : list Op) (w : World) :
  forallb (fun o => negb (stores_settings o)) ops = true ->
  cached (steps ops w) = cached w /\
  spi_init_calls (trace (steps ops w)) = spi_init_calls (trace w).
Proof.
  revert w. induction ops as [|o ops IH]; intros w Hall; simpl in *.
  - split; reflexivity.
  - apply andb_true_iff in Hall as [Ho Hops].
    apply negb_true_iff in Ho.
    destruct (step_frame o w) as (Hf & _ & _).
    destruct (Hf Ho) as [Hc Hn].
    destruct (IH (step o w) Hops) as [Hc' Hn'].
    unfold steps in *. rewrite Hc', Hn'. split; assumption.
Qed.

(** X13.  Only [begin] and [beginTransaction] can change the cached skip-receive
    flag: no sequence of other calls does. *)
Theorem skipRecv_only_by_transaction (ops : list Op) (w : World) :
  forallb (fun o => negb (replaces_settings o)) ops = true ->
  SPISettings.getSkipRecv (cached (steps ops w)) =
  SPISettings.getSkipRecv (cached w).
Proof.
  revert w. induction ops as [|o ops IH]; intros w Hall; simpl in *.
  - reflexivity.
  - apply andb_true_iff in Hall as [Ho Hops].
    apply negb_true_iff in Ho.
    destruct (step_frame o w) as (_ & Hf & _).
    unfold steps in *. rewrite (IH (step o w) Hops). apply Hf. exact Ho.
Qed.

(** X14.  A sequence of calls makes at most one [spi_init] per call of [begin],
    [beginTransaction] or a setter. *)
Theorem spi_init_at_most_once_per_call (ops : list Op) (w : World) :
  (spi_init_calls (trace (steps ops w)) <=
   spi_init_calls (trace w) + length (filter stores_settings ops))%nat.
Proof.
  revert w. induction ops as [|o ops IH]; intros w.
  - simpl. lia.
  - change (steps (o :: ops) w) with (steps ops (step o w)).
    destruct (step_frame o w) as (_ & _ & Hle).
    specialize (IH (step o w)). simpl filter.
    destruct (stores_settings o); simpl length; lia.
Qed.

End MoreMethods.

(** ** The derived class *)

Lemma SUBGHZSPIClass_as_base {hal : HAL} (w : SPIClass.World) :
  SUBGHZSPIClass.begin w = SPIClass.begin w /\
  (forall s, SUBGHZSPIClass.beginTransaction s w = SPIClass.beginTransaction s w) /\
  (forall d, SUBGHZSPIClass.transfer d w = SPIClass.transfer d w) /\
  (forall d, SUBGHZSPIClass.transfer16 d w = SPIClass.transfer16 d w) /\
  (forall b c, SUBGHZSPIClass.transfer_buf b c w = SPIClass.transfer_buf b c w).
Proof.
  repeat split.
  - intros d. unfold SUBGHZSPIClass.transfer, SPIClass.bind, SPIClass.ret.
    now destruct (SPIClass.transfer d w).
  - intros d. unfold SUBGHZSPIClass.transfer16, SPIClass.bind, SPIClass.ret.
    now destruct (SPIClass.transfer16 d w).
Qed.

(** ** More runs on the bench *)

Section MoreOnTheBench.

Import SPIClass.
#[local] Existing Instance Bench.hal.

Lemma setter_as_transaction_witness :
  (0 <> SPISettings.getBitOrder (cached Bench.w1) /\
   setBitOrder 0 Bench.w1 =
   beginTransaction (SPISettings.mk 4000000 0 0 false) Bench.w1) /\
  (3 <> SPISettings.getDataMode (cached Bench.w1) /\
   setDataMode 3 Bench.w1 =
   beginTransaction (SPISettings.mk 4000000 1 3 false) Bench.w1).
Proof.
  assert (Hb : 0 <> SPISettings.getBitOrder (cached Bench.w1))
    by (vm_compute; discriminate).
  assert (Hm : 3 <> SPISettings.getDataMode (cached Bench.w1))
    by (vm_compute; discriminate).
  split.
  - split; [exact Hb|].
    exact (proj1 (setter_as_transaction Bench.w1) 0 Hb).
  - split; [exact Hm|].
    exact (proj2 (setter_as_transaction Bench.w1) 3 Hm).
Defined.

Lemma setClockDivider_bounds_witness :
  1 <= 7 <= 255 /\
  0 <= SPISettings.getClockFreq (cached (exec (setClockDivider 7) Bench.w1))
    <= 72000000.
Proof.
  assert (Hd : 1 <= 7 <= 255) by lia.
  split; [exact Hd|].
  exact (proj1 (setClockDivider_bounds 7 Bench.w1 Hd)).
Defined.

Lemma swap16_exchanges_bytes_witness :
  0 <= 0x1234 < 65536 /\ swap16 0x1234 = 0x3412.
Proof.
  assert (Hd : 0 <= 0x1234 < 65536) by lia.
  split; [exact Hd|].
  exact (proj1 (swap16_exchanges_bytes 0x1234 Hd)).
Defined.

Lemma transfer16_wire_order_witness :
  0 <= 0x1234 < 65536 /\
  exists a b,
    eval (spi_transfer [x12; x34] 2 1000 false) Bench.w1 = [a; b] /\
    trace (exec (transfer16 0x1234) Bench.w1) =
    trace Bench.w1 ++ [Call_spi_transfer [x12; x34] 2 1000 false] /\
    eval (transfer16 0x1234) Bench.w1 = 256 * Z_of_byte a + Z_of_byte b.
Proof.
  assert (Hd : 0 <= 0x1234 < 65536) by lia.
  split; [exact Hd|].
  exact (transfer16_wire_order 0x1234 Bench.w1 Hd).
Defined.

Lemma transaction_then_transfer_witness :
  let s := SPISettings.mk 1000000 0 2 true in
  3 <> 0 /\ Some [x01; x02; x03] <> None /\
  trace (exec (transfer_buf (Some [x01; x02; x03]) 3)
              (exec (beginTransaction s) Bench.w1)) =
  trace (exec (beginTransaction s) Bench.w1) ++
  [Call_spi_transfer [x01; x02; x03] 3 1000 true].
Proof.
  cbv zeta.
  assert (Hc : 3 <> 0) by discriminate.
  assert (Hb : Some [x01; x02; x03] <> @None (list byte)) by discriminate.
  split; [exact Hc|]. split; [exact Hb|].
  exact (proj2 (proj2 (transaction_then_transfer
                         (SPISettings.mk 1000000 0 2 true) Bench.w1))
               (Some [x01; x02; x03]) 3 Hc Hb).
Defined.

Lemma transfers_keep_cache_witness :
  let ops := [OpTransfer x42; OpTransfer16 0xbeef; OpEnd; OpEndTransaction;
              OpTransfer_buf (Some [x01; x02]) 2; OpAttachInterrupt] in
  forallb (fun o => negb (stores_settings o)) ops = true /\
  cached (steps ops Bench.w1) = cached Bench.w1 /\
  spi_init_calls (trace (steps ops Bench.w1)) = 1%nat.
Proof.
  cbv zeta. split; [reflexivity|].
  exact (transfers_keep_cache
           [OpTransfer x42; OpTransfer16 0xbeef; OpEnd; OpEndTransaction;
            OpTransfer_buf (Some [x01; x02]) 2; OpAttachInterrupt]
           Bench.w1 eq_refl).
Defined.

Lemma skipRecv_only_by_transaction_witness :
  let ops := [OpSetBitOrder 0; OpTransfer x42; OpSetClockDivider 9;
              OpSetDataMode_uint8 3; OpEnd] in
  forallb (fun o => negb (replaces_settings o)) ops = true /\
  SPISettings.getSkipRecv (cached (steps ops Bench.w1)) = false.
Proof.
  cbv zeta. split; [reflexivity|].
  exact (skipRecv_only_by_transaction
           [OpSetBitOrder 0; OpTransfer x42; OpSetClockDivider 9;
            OpSetDataMode_uint8 3; OpEnd]
           Bench.w1 eq_refl).
Defined.

End MoreOnTheBench.
